(** * tlsutils: decoding a PEM private key and naming its algorithm

    A shallow embedding of [tlsutils/common_key.go]: the registry
    [keyParsers], the entry point [parsePrivateKeyPEM] and the type switch
    [privateKeyToAlgorithm], over a small model of the Go values they
    handle (interface values with a dynamic type, [error] values built by
    [fmt.Errorf], byte slices). *)

From Stdlib Require Import ZArith String Ascii List DecimalString.
From Stdlib Require Import Strings.Byte.
From stdpp Require Import gmap strings.

Open Scope string_scope.
Open Scope Z_scope.

(** ** Go values *)

(** A byte slice, [[]byte]. *)
Definition bytes : Type := list Byte.byte.

(** [len(b)] of a slice, a Go [int]. *)
Definition len (b : bytes) : Z := Z.of_nat (length b).

(** The dynamic types the code can meet: named types of a package and
    pointers to them.  [pkgPath] identifies the package, [pkgName] is the
    name the package is printed with. *)
Inductive GoType : Type :=
  | TNamed (pkgPath pkgName name : string)
  | TPtr (elem : GoType).

#[global] Instance GoType_eq_dec : EqDecision GoType.
Proof. solve_decision. Defined.

#[local] Set Warnings "-register-all".

(** What a value holds.  A pointer is nil or leads to the value it points
    to. *)
Inductive GoValue : Type :=
  | VInt (n : Z)
  | VBytes (b : bytes)
  | VStruct (fields : list GoValue)
  | VPtr (target : option GoValue).

(** A non-nil interface value: a dynamic type and the value of that type. *)
Record eface : Type := Eface { etype : GoType; edata : GoValue }.

(** [any] (and so [crypto.PrivateKey], which is declared as [any]): the nil
    interface or a dynamic type with its value. *)
Definition any : Type := option eface.

(** [reflect.Type.String], what the verb [%T] prints for a type. *)
Fixpoint GoType_String (t : GoType) : string :=
  match t with
  | TNamed _ "" name => name
  | TNamed _ pkg name => pkg ++ "." ++ name
  | TPtr elem => "*" ++ GoType_String elem
  end.

(** ** Errors *)

(** The values behind the interface [error] that [errors.New] and
    [fmt.Errorf] build: a message, and for the verb [%w] the error that is
    wrapped.  An error of another package is seen through its message and
    what it wraps. *)
Inductive errorValue : Type :=
  | errorString (s : string)
  | wrapError (msg : string) (err : errorValue).

(** The interface [error]: nil or an error value. *)
Definition error : Type := option errorValue.

(** The method [Error()]. *)
Definition Error (e : errorValue) : string :=
  match e with
  | errorString s => s
  | wrapError msg _ => msg
  end.

(** [errors.Unwrap]. *)
Definition Unwrap (e : errorValue) : error :=
  match e with
  | errorString _ => None
  | wrapError _ err => Some err
  end.

(** ** Package fmt *)
Module fmt.

(** An operand of a formatting call, as the source passes it. *)
Inductive operand : Type :=
  | Int (n : Z)
  | Str (s : string)
  | Val (v : any)
  | Err (e : errorValue).

(** Decimal rendering of an [int], the verb [%d]. *)
Definition itoa (n : Z) : string := NilZero.string_of_int (Z.to_int n).

(** What the verb [%T] prints: the dynamic type, [<nil>] for the nil
    interface. *)
Definition typeName (v : any) : string :=
  match v with
  | None => "<nil>"
  | Some i => GoType_String (etype i)
  end.

(** One verb applied to one operand.  The verbs are the four that the
    package uses, each with the kind of operand the package gives it;
    any other pairing is rendered as a bad-verb mark. *)
Definition verb (c : ascii) (a : operand) : string :=
  match c, a with
  | "d"%char, Int n => itoa n
  | "s"%char, Str s => s
  | "T"%char, Val v => typeName v
  | "w"%char, Err e => Error e
  | _, _ => "%!" ++ String c "(BADVERB)"
  end.

(** [fmt.Sprintf]: copy the format, replacing each verb by its operand. *)
Fixpoint Sprintf (format : string) (args : list operand) : string :=
  match format with
  | EmptyString => EmptyString
  | String "%"%char (String "%"%char rest) => String "%"%char (Sprintf rest args)
  | String "%"%char (String c rest) =>
      match args with
      | a :: args' => verb c a ++ Sprintf rest args'
      | [] => "%!" ++ String c "(MISSING)" ++ Sprintf rest []
      end
  | String c rest => String c (Sprintf rest args)
  end.

(** The operand of the verb [%w], when the format has one. *)
Fixpoint wrapped (format : string) (args : list operand) : error :=
  match format with
  | EmptyString => None
  | String "%"%char (String "%"%char rest) => wrapped rest args
  | String "%"%char (String c rest) =>
      match args with
      | a :: args' =>
          match c, a with
          | "w"%char, Err e => Some e
          | _, _ => wrapped rest args'
          end
      | [] => None
      end
  | String _ rest => wrapped rest args
  end.

(** [fmt.Errorf]: the formatted message, wrapping the operand of [%w]. *)
Definition Errorf (format : string) (args : list operand) : errorValue :=
  match wrapped format args with
  | Some e => wrapError (Sprintf format args) e
  | None => errorString (Sprintf format args)
  end.

End fmt.

(** ** The packages the source imports *)

Module rsa.
Definition PrivateKey : GoType := TNamed "crypto/rsa" "rsa" "PrivateKey".
End rsa.

Module ecdsa.
Definition PrivateKey : GoType := TNamed "crypto/ecdsa" "ecdsa" "PrivateKey".
End ecdsa.

Module ed25519.
Definition PrivateKey : GoType := TNamed "crypto/ed25519" "ed25519" "PrivateKey".
End ed25519.

Module pem.
(** [pem.Block]; the field [Type] is written [Type_]. *)
Record Block : Type :=
  { Type_ : string; Headers : gmap string string; Bytes : bytes }.
End pem.

(** A typed pointer [*T] returned where [crypto.PrivateKey] is expected
    becomes a non-nil interface of dynamic type [*T], also when the pointer
    itself is nil. *)
Definition ptrToAny (T : GoType) (p : option GoValue) : any :=
  Some (Eface (TPtr T) (VPtr p)).

(** The functions of the Go standard library that the source calls.  They
    are not code of this package: the development is parametric in them.
      - [pem.Decode] returns the first block found, or nil, and the rest of
        the input;
      - [x509.ParsePKCS1PrivateKey] returns a [*rsa.PrivateKey],
        [x509.ParseECPrivateKey] a [*ecdsa.PrivateKey] (the pointer, nil or
        not, is given by what it points to);
      - [x509.ParsePKCS8PrivateKey] returns an [any]. *)
Class GoStdlib : Type :=
  { pem_Decode : bytes -> option pem.Block * bytes;
    x509_ParsePKCS1PrivateKey : bytes -> option GoValue * error;
    x509_ParseECPrivateKey : bytes -> option GoValue * error;
    x509_ParsePKCS8PrivateKey : bytes -> any * error }.

(** ** Declarations of package tlsutils used by common_key.go *)

(** Modelled from the spec: the type [Algorithm] and its constants [RSA],
    [ECDSA] and [ED25519] are declared in a file of the package that is not
    at hand.  The source returns the literal [""] as an [Algorithm], so the
    type is a string type; the spec names its members RSA, ECDSA and
    ED25519. *)
Definition Algorithm : Type := string.
Definition RSA : Algorithm := "RSA".
Definition ECDSA : Algorithm := "ECDSA".
Definition ED25519 : Algorithm := "ED25519".

(** Modelled from the spec: the type [PEMPreamble] and the constants
    [PreamblePrivateKeyRSA], [PreamblePrivateKeyEC] and
    [PreamblePrivateKeyPKCS8] are declared in a file of the package that is
    not at hand.  The source keys a map with the type and prints it with
    [%s]; the spec gives the three labels. *)
Definition PEMPreamble : Type := string.
Definition PreamblePrivateKeyRSA : PEMPreamble := "RSA PRIVATE KEY".
Definition PreamblePrivateKeyEC : PEMPreamble := "EC PRIVATE KEY".
Definition PreamblePrivateKeyPKCS8 : PEMPreamble := "PRIVATE KEY".

(** ** common_key.go *)

(** [type keyParser func([]byte) (crypto.PrivateKey, error)] *)
Definition keyParser : Type := bytes -> any * error.

(** One [case T1, T2:] of a type switch: the dynamic type of [v] is among
    [types].  The nil interface matches no type. *)
Definition caseType (v : any) (types : list GoType) : bool :=
  match v with
  | None => false
  | Some i => bool_decide (etype i ∈ types)
  end.

(** [privateKeyToAlgorithm] identifies the Algorithm used by a given
    [crypto.PrivateKey]. *)
Definition privateKeyToAlgorithm (prvKey : any) : Algorithm * error :=
  if caseType prvKey [rsa.PrivateKey; TPtr rsa.PrivateKey] then
    (RSA, None)
  else if caseType prvKey [ecdsa.PrivateKey; TPtr ecdsa.PrivateKey] then
    (ECDSA, None)
  else if caseType prvKey [ed25519.PrivateKey; TPtr ed25519.PrivateKey] then
    (ED25519, None)
  else
    ("", Some (fmt.Errorf "unsupported private key type: %T" [fmt.Val prvKey])).

Section Dispatcher.

Context {lib : GoStdlib}.

(** [pemBlockToPEMPreamble] is a function of the package declared in a
    file that is not at hand; [parsePrivateKeyPEM] is embedded for any
    such function. *)
Variable pemBlockToPEMPreamble : pem.Block -> PEMPreamble * error.

(** [keyParsers] provides a [keyParser] given a specific [PEMPreamble]. *)
Definition keyParsers : gmap string keyParser :=
  list_to_map
    [ (PreamblePrivateKeyRSA,
       fun der => let '(key, err) := x509_ParsePKCS1PrivateKey der in
                  (ptrToAny rsa.PrivateKey key, err));
      (PreamblePrivateKeyEC,
       fun der => let '(key, err) := x509_ParseECPrivateKey der in
                  (ptrToAny ecdsa.PrivateKey key, err));
      (PreamblePrivateKeyPKCS8,
       fun der => x509_ParsePKCS8PrivateKey der) ].

(** [parsePrivateKeyPEM] takes a slice of bytes containing a private key
    encoded in PEM format, and returns a [crypto.PrivateKey] together
    with the [Algorithm] used by the key. *)
Definition parsePrivateKeyPEM (keyPEMBytes : bytes) : any * Algorithm * error :=
  let '(pemBlock, rest) := pem_Decode keyPEMBytes in
  match pemBlock with
  | None =>
      (None, "",
       Some (fmt.Errorf "failed to decode PEM block: decoded bytes %d, undecoded %d"
               [fmt.Int (len keyPEMBytes - len rest); fmt.Int (len rest)]))
  | Some pemBlock =>
      (* Identify the PEM preamble from the block *)
      let '(preamble, err) := pemBlockToPEMPreamble pemBlock in
      match err with
      | Some _ => (None, "", err)
      | None =>
          (* Identify parser for the given PEM preamble *)
          match keyParsers !! preamble with
          | None =>
              (None, "",
               Some (fmt.Errorf "unable to determine parser for PEM preamble: %s"
                       [fmt.Str preamble]))
          | Some parser =>
              (* Parse the specific crypto.PrivateKey from the PEM Block bytes *)
              let '(prvKey, err) := parser (pem.Bytes pemBlock) in
              match err with
              | Some e =>
                  (None, "",
                   Some (fmt.Errorf "failed to parse private key given PEM preamble '%s': %w"
                           [fmt.Str preamble; fmt.Err e]))
              | None =>
                  (* Identify the Algorithm of the crypto.PrivateKey *)
                  let '(algorithm, err) := privateKeyToAlgorithm prvKey in
                  match err with
                  | Some e =>
                      (None, "",
                       Some (fmt.Errorf "failed to determine key algorithm for private key of type %T: %w"
                               [fmt.Val prvKey; fmt.Err e]))
                  | None => (prvKey, algorithm, None)
                  end
              end
          end
      end
  end.

End Dispatcher.

Arguments keyParsers {lib}.
Arguments parsePrivateKeyPEM {lib}.

(** ** The Preamble Classifier *)

(** The error of the classifier.  Modelled from the spec: the spec names the
    error [UnrecognizedPreamble] and says that it carries the offending
    label; it does not give the text of the message, which is taken to be
    the name followed by the label. *)
Definition UnrecognizedPreamble (label : string) : errorValue :=
  errorString ("UnrecognizedPreamble: " ++ label).

(** Modelled from the spec: [pemBlockToPEMPreamble] is declared in a file of
    the package that is not at hand.  The spec (4.1, 6) describes it as
    [classify_preamble]: a fixed lookup on the exact label, [RSA PRIVATE KEY],
    [EC PRIVATE KEY] and [PRIVATE KEY] being the recognized labels, any
    other label failing with [UnrecognizedPreamble]. *)
Definition classify_preamble (envelope_label : string) : PEMPreamble * error :=
  if decide (envelope_label = "RSA PRIVATE KEY") then (PreamblePrivateKeyRSA, None)
  else if decide (envelope_label = "EC PRIVATE KEY") then (PreamblePrivateKeyEC, None)
  else if decide (envelope_label = "PRIVATE KEY") then (PreamblePrivateKeyPKCS8, None)
  else ("", Some (UnrecognizedPreamble envelope_label)).

(** Modelled from the spec: the classifier applied to the label of a decoded
    envelope, the way [parsePrivateKeyPEM] calls it. *)
Definition classify_block (block : pem.Block) : PEMPreamble * error :=
  classify_preamble (pem.Type_ block).

(** The Key Decode Dispatcher of the spec (4.2): [parsePrivateKeyPEM] with
    the classifier of the spec. *)
Definition decode_private_key {lib : GoStdlib} (raw : bytes) : any * Algorithm * error :=
  parsePrivateKeyPEM classify_block raw.

(** ** Vocabulary of the statements *)

(** The dynamic type of an interface value, when it is not nil. *)
Definition typeOf (v : any) : option GoType := etype <$> v.

(** [v] holds a [T], as a value or behind a pointer. *)
Definition holds (v : any) (T : GoType) : Prop :=
  typeOf v = Some T \/ typeOf v = Some (TPtr T).

(** The six dynamic types that [privateKeyToAlgorithm] knows. *)
Definition supportedShapes : list GoType :=
  [ rsa.PrivateKey; TPtr rsa.PrivateKey;
    ecdsa.PrivateKey; TPtr ecdsa.PrivateKey;
    ed25519.PrivateKey; TPtr ed25519.PrivateKey ].

(** [v] has none of the six types; the nil interface is such a value. *)
Definition unsupportedShape (v : any) : Prop :=
  forall T : GoType, typeOf v = Some T -> T ∉ supportedShapes.

(** [sub] occurs in [s]. *)
Definition carries (s sub : string) : Prop :=
  exists before after : string, s = before ++ sub ++ after.

(** The chain of an error: the error, what it wraps, and so on. *)
Fixpoint chain (e : errorValue) : list errorValue :=
  match e with
  | errorString _ => [e]
  | wrapError _ err => e :: chain err
  end.

(** The errors of [common_key.go] under the names of the spec's taxonomy
    (7), with the messages of the source. *)
Definition MalformedPEM (decoded undecoded : Z) : errorValue :=
  errorString ("failed to decode PEM block: decoded bytes " ++ fmt.itoa decoded
               ++ ", undecoded " ++ fmt.itoa undecoded).

Definition ParserUndetermined (preamble : PEMPreamble) : errorValue :=
  errorString ("unable to determine parser for PEM preamble: " ++ preamble).

Definition KeyDecodeFailed (preamble : PEMPreamble) (underlying : errorValue) : errorValue :=
  wrapError ("failed to parse private key given PEM preamble '" ++ preamble
             ++ "': " ++ Error underlying) underlying.

Definition UnsupportedKeyType (shape : string) : errorValue :=
  errorString ("unsupported private key type: " ++ shape).

Definition AlgorithmUndetermined (shape : string) : errorValue :=
  wrapError ("failed to determine key algorithm for private key of type " ++ shape
             ++ ": " ++ Error (UnsupportedKeyType shape)) (UnsupportedKeyType shape).

(** The two shapes of a result of [parsePrivateKeyPEM]. *)
Definition isFailure (r : any * Algorithm * error) : Prop :=
  let '(key, algorithm, err) := r in
  err <> None /\ key = None /\ algorithm = "" /\ algorithm ∉ [RSA; ECDSA; ED25519].

Definition isSuccess (r : any * Algorithm * error) : Prop :=
  let '(key, algorithm, err) := r in
  err = None /\ key <> None /\ algorithm ∈ [RSA; ECDSA; ED25519].

(** The paths through [parsePrivateKeyPEM], one constructor per [return]
    of the source, in the order of the source. *)
Section Outcomes.

Context {lib : GoStdlib}.
Variable pemBlockToPEMPreamble : pem.Block -> PEMPreamble * error.

Inductive outcome (raw : bytes) : any * Algorithm * error -> Prop :=
  | outcome_malformed rest :
      pem_Decode raw = (None, rest) ->
      outcome raw (None, "", Some (MalformedPEM (len raw - len rest) (len rest)))
  | outcome_unclassified block rest preamble e :
      pem_Decode raw = (Some block, rest) ->
      pemBlockToPEMPreamble block = (preamble, Some e) ->
      outcome raw (None, "", Some e)
  | outcome_no_parser block rest preamble :
      pem_Decode raw = (Some block, rest) ->
      pemBlockToPEMPreamble block = (preamble, None) ->
      keyParsers !! preamble = None ->
      outcome raw (None, "", Some (ParserUndetermined preamble))
  | outcome_rejected block rest preamble parser key e :
      pem_Decode raw = (Some block, rest) ->
      pemBlockToPEMPreamble block = (preamble, None) ->
      keyParsers !! preamble = Some parser ->
      parser (pem.Bytes block) = (key, Some e) ->
      outcome raw (None, "", Some (KeyDecodeFailed preamble e))
  | outcome_unsupported block rest preamble parser key algorithm e :
      pem_Decode raw = (Some block, rest) ->
      pemBlockToPEMPreamble block = (preamble, None) ->
      keyParsers !! preamble = Some parser ->
      parser (pem.Bytes block) = (key, None) ->
      privateKeyToAlgorithm key = (algorithm, Some e) ->
      outcome raw (None, "", Some (AlgorithmUndetermined (fmt.typeName key)))
  | outcome_decoded block rest preamble parser key algorithm :
      pem_Decode raw = (Some block, rest) ->
      pemBlockToPEMPreamble block = (preamble, None) ->
      keyParsers !! preamble = Some parser ->
      parser (pem.Bytes block) = (key, None) ->
      privateKeyToAlgorithm key = (algorithm, None) ->
      outcome raw (key, algorithm, None).

End Outcomes.

(** ** A stand-in for the standard library *)

(** To run the definitions on concrete inputs the parameters need values.
    [Sample] is a toy library, not Go's: an envelope is one letter for the
    label ([R], [E], [P], [C]), a payload and a closing [;]; a payload is
    one letter for the key ([r], [e], [d], [x]) followed by its bytes. *)
Module Sample.

Fixpoint untilClose (data : bytes) : option (bytes * bytes) :=
  match data with
  | [] => None
  | ";"%byte :: rest => Some ([], rest)
  | b :: data' =>
      match untilClose data' with
      | Some (payload, rest) => Some (b :: payload, rest)
      | None => None
      end
  end.

Definition label (b : Byte.byte) : option string :=
  match b with
  | "R"%byte => Some "RSA PRIVATE KEY"
  | "E"%byte => Some "EC PRIVATE KEY"
  | "P"%byte => Some "PRIVATE KEY"
  | "C"%byte => Some "CERTIFICATE"
  | _ => None
  end.

Definition Decode (data : bytes) : option pem.Block * bytes :=
  match data with
  | b :: data' =>
      match label b, untilClose data' with
      | Some l, Some (payload, rest) =>
          (Some {| pem.Type_ := l; pem.Headers := ∅; pem.Bytes := payload |}, rest)
      | _, _ => (None, data)
      end
  | [] => (None, data)
  end.

Definition ParsePKCS1PrivateKey (der : bytes) : option GoValue * error :=
  match der with
  | "r"%byte :: d => (Some (VBytes d), None)
  | _ => (None, Some (errorString "x509: failed to parse private key"))
  end.

Definition ParseECPrivateKey (der : bytes) : option GoValue * error :=
  match der with
  | "e"%byte :: d => (Some (VBytes d), None)
  | _ => (None, Some (errorString "x509: failed to parse EC private key"))
  end.

Definition ParsePKCS8PrivateKey (der : bytes) : any * error :=
  match der with
  | "r"%byte :: d => (ptrToAny rsa.PrivateKey (Some (VBytes d)), None)
  | "e"%byte :: d => (ptrToAny ecdsa.PrivateKey (Some (VBytes d)), None)
  | "d"%byte :: d => (Some (Eface ed25519.PrivateKey (VBytes d)), None)
  | "x"%byte :: d =>
      (ptrToAny (TNamed "crypto/ecdh" "ecdh" "PrivateKey") (Some (VBytes d)), None)
  | _ => (None, Some (errorString "x509: failed to parse private key"))
  end.

Definition lib : GoStdlib :=
  {| pem_Decode := Decode;
     x509_ParsePKCS1PrivateKey := ParsePKCS1PrivateKey;
     x509_ParseECPrivateKey := ParseECPrivateKey;
     x509_ParsePKCS8PrivateKey := ParsePKCS8PrivateKey |}.

(** The bytes of a text. *)
Definition text (s : string) : bytes := list_byte_of_string s.

(** The block of an envelope. *)
Definition block (l payload : string) : pem.Block :=
  {| pem.Type_ := l; pem.Headers := ∅; pem.Bytes := text payload |}.

(** Keys of the toy parsers for the payload bytes [k]. *)
Definition ed25519Key : any := Some (Eface ed25519.PrivateKey (VBytes (text "k"))).
Definition rsaKey : any := ptrToAny rsa.PrivateKey (Some (VBytes (text "k"))).
Definition ecdhKey : any :=
  ptrToAny (TNamed "crypto/ecdh" "ecdh" "PrivateKey") (Some (VBytes (text "k"))).

(** The error of the toy PKCS#1 parser. *)
Definition pkcs1Error : errorValue := errorString "x509: failed to parse private key".

End Sample.

(** ** A model of pem.Decode *)

(** [pem.Decode] belongs to Go's package encoding/pem, not to this
    package, and the properties are proved for any function in its place.
    To run [parsePrivateKeyPEM] on PEM text, [encoding_pem] follows the
    library's function step by step. *)
Module encoding_pem.

(** The markers of an envelope. *)
Definition pemStart : bytes := x0a :: Sample.text "-----BEGIN ".
Definition pemEnd : bytes := x0a :: Sample.text "-----END ".
Definition pemEndOfLine : bytes := Sample.text "-----".
Definition colon : bytes := Sample.text ":".

(** [bytes.HasPrefix], [bytes.HasSuffix], [bytes.Index] (nothing for -1)
    and [bytes.Cut]. *)
Fixpoint HasPrefix (s prefix : bytes) : bool :=
  match prefix, s with
  | [], _ => true
  | p :: prefix', c :: s' => Byte.eqb p c && HasPrefix s' prefix'
  | _ :: _, [] => false
  end.

Definition HasSuffix (s suffix : bytes) : bool := HasPrefix (rev s) (rev suffix).

Fixpoint Index (s sep : bytes) : option nat :=
  if HasPrefix s sep then Some 0%nat
  else match s with
       | [] => None
       | _ :: s' => S <$> Index s' sep
       end.

Definition Cut (s sep : bytes) : option (bytes * bytes) :=
  match Index s sep with
  | Some i => Some (take i s, drop (i + length sep) s)
  | None => None
  end.

(** The cut set of [getLine] and the white space of [bytes.TrimSpace]. *)
Definition isSpaceOrTab (b : Byte.byte) : bool := Byte.eqb b " "%byte || Byte.eqb b x09.

Definition isSpace (b : Byte.byte) : bool :=
  isSpaceOrTab b || Byte.eqb b x0a || Byte.eqb b x0b || Byte.eqb b x0c || Byte.eqb b x0d.

(** [bytes.TrimRight] and [bytes.TrimSpace], by a test on bytes. *)
Fixpoint dropWhile (f : Byte.byte -> bool) (s : bytes) : bytes :=
  match s with
  | c :: s' => if f c then dropWhile f s' else s
  | [] => []
  end.

Definition TrimRight (f : Byte.byte -> bool) (s : bytes) : bytes := rev (dropWhile f (rev s)).

Definition TrimSpace (s : bytes) : bytes := TrimRight isSpace (dropWhile isSpace s).

(** [getLine]: the first line of [data] without its line break and its
    trailing spaces and tabs, and what follows the line. *)
Definition getLine (data : bytes) : bytes * bytes :=
  match Index data [x0a] with
  | None => (TrimRight isSpaceOrTab data, [])
  | Some i =>
      let j := S i in
      let i' := match i with
                | S k => match data !! k with
                         | Some c => if Byte.eqb c x0d then k else i
                         | None => i
                         end
                | O => i
                end in
      (TrimRight isSpaceOrTab (take i' data), drop j data)
  end.

(** [removeSpacesAndTabs]. *)
Definition removeSpacesAndTabs (data : bytes) : bytes :=
  filter (fun b => negb (isSpaceOrTab b) = true) data.

(** [base64.StdEncoding.Decode]: line breaks are skipped, the rest is read
    four characters at a time, padding is required and ends the input. *)
Definition sextet (b : Byte.byte) : option N :=
  let n := Byte.to_N b in
  if ((65 <=? n) && (n <=? 90))%N then Some (n - 65)%N
  else if ((97 <=? n) && (n <=? 122))%N then Some (n - 71)%N
  else if ((48 <=? n) && (n <=? 57))%N then Some (n + 4)%N
  else if (n =? 43)%N then Some 62%N
  else if (n =? 47)%N then Some 63%N
  else None.

Definition octet (n : N) : Byte.byte :=
  match Byte.of_N (n mod 256) with
  | Some b => b
  | None => x00
  end.

Definition isPad (b : Byte.byte) : bool := Byte.eqb b "="%byte.

Fixpoint decodeQuanta (src : bytes) : option bytes :=
  match src with
  | [] => Some []
  | a :: b :: c :: d :: src' =>
      match sextet a, sextet b with
      | Some va, Some vb =>
          if isPad c then
            match src' with
            | [] => if isPad d then Some [octet (va * 4 + vb / 16)] else None
            | _ :: _ => None
            end
          else
            match sextet c with
            | Some vc =>
                if isPad d then
                  match src' with
                  | [] => Some [octet (va * 4 + vb / 16); octet (vb * 16 + vc / 4)]
                  | _ :: _ => None
                  end
                else
                  match sextet d with
                  | Some vd =>
                      match decodeQuanta src' with
                      | Some out =>
                          Some (octet (va * 4 + vb / 16) :: octet (vb * 16 + vc / 4)
                                :: octet (vc * 64 + vd) :: out)
                      | None => None
                      end
                  | None => None
                  end
            | None => None
            end
      | _, _ => None
      end
  | _ => None
  end.

Definition base64Decode (src : bytes) : option bytes :=
  decodeQuanta (filter (fun b => negb (Byte.eqb b x0a || Byte.eqb b x0d) = true) src).

(** The loop over the header lines.  It stops at the first line without a
    colon; when the input ends first, [Decode] returns nil. *)
Inductive headersResult : Type :=
  | HeadersRead (headers : gmap string string) (rest : bytes)
  | HeadersNoInput
  | HeadersFuel.

Fixpoint readHeaders (fuel : nat) (headers : gmap string string) (rest : bytes) : headersResult :=
  match fuel with
  | O => HeadersFuel
  | S fuel' =>
      match rest with
      | [] => HeadersNoInput
      | _ :: _ =>
          let '(line, next) := getLine rest in
          match Cut line colon with
          | None => HeadersRead headers rest
          | Some (key, val) =>
              readHeaders fuel'
                (<[string_of_list_byte (TrimSpace key) := string_of_list_byte (TrimSpace val)]> headers)
                next
          end
      end
  end.

(** One round of the loop of [Decode] after a begin marker: a block and
    the rest, or [continue] with the input still to search, or nil. *)
Inductive attemptResult : Type :=
  | Found (p : pem.Block) (rest : bytes)
  | Continue (rest : bytes)
  | ReturnNil
  | OutOfFuel.

Definition attempt (rest : bytes) : attemptResult :=
  let '(typeLine, rest) := getLine rest in
  if negb (HasSuffix typeLine pemEndOfLine) then Continue rest else
  let typeLine := take (length typeLine - length pemEndOfLine) typeLine in
  match readHeaders (S (length rest)) ∅ rest with
  | HeadersFuel => OutOfFuel
  | HeadersNoInput => ReturnNil
  | HeadersRead headers rest =>
      let ends :=
        if Nat.eqb (size headers) 0 && HasPrefix rest (tail pemEnd)
        then Some (0%nat, (length pemEnd - 1)%nat)
        else match Index rest pemEnd with
             | Some endIndex => Some (endIndex, (endIndex + length pemEnd)%nat)
             | None => None
             end in
      match ends with
      | None => Continue rest
      | Some (endIndex, endTrailerIndex) =>
          let endTrailer := drop endTrailerIndex rest in
          let endTrailerLen := (length typeLine + length pemEndOfLine)%nat in
          if (length endTrailer <? endTrailerLen)%nat then Continue rest else
          let restOfEndLine := drop endTrailerLen endTrailer in
          let endTrailer := take endTrailerLen endTrailer in
          if negb (HasPrefix endTrailer typeLine) || negb (HasSuffix endTrailer pemEndOfLine)
          then Continue rest else
          if negb (Nat.eqb (length (fst (getLine restOfEndLine))) 0) then Continue rest else
          match base64Decode (removeSpacesAndTabs (take endIndex rest)) with
          | None => Continue rest
          | Some decoded =>
              Found {| pem.Type_ := string_of_list_byte typeLine;
                       pem.Headers := headers;
                       pem.Bytes := decoded |}
                    (snd (getLine (drop (endIndex + length pemEnd - 1) rest)))
          end
      end
  end.

(** The loop of [Decode].  Every round drops a begin marker from [rest],
    so it ends within as many rounds as [data] has bytes. *)
Fixpoint decodeLoop (fuel : nat) (data rest : bytes) : option (option pem.Block * bytes) :=
  match fuel with
  | O => None
  | S fuel' =>
      let start :=
        if HasPrefix rest (tail pemStart) then Some (drop (length pemStart - 1) rest)
        else snd <$> Cut rest pemStart in
      match start with
      | None => Some (None, data)
      | Some rest =>
          match attempt rest with
          | Found p rest => Some (Some p, rest)
          | Continue rest => decodeLoop fuel' data rest
          | ReturnNil => Some (None, data)
          | OutOfFuel => None
          end
      end
  end.

(** [pem.Decode]: the first block of [data] and the rest, or nil and
    [data]. *)
Definition Decode (data : bytes) : option pem.Block * bytes :=
  match decodeLoop (S (length data)) data data with
  | Some r => r
  | None => (None, data)
  end.

End encoding_pem.

(** The library with [encoding_pem.Decode] as [pem.Decode]; the x509
    functions are those of [Sample], so a payload is the base64 text of one
    letter for the key and its bytes ([ZGs=] is [dk]). *)
Module PemSample.

Definition lib : GoStdlib :=
  {| pem_Decode := encoding_pem.Decode;
     x509_ParsePKCS1PrivateKey := Sample.ParsePKCS1PrivateKey;
     x509_ParseECPrivateKey := Sample.ParseECPrivateKey;
     x509_ParsePKCS8PrivateKey := Sample.ParsePKCS8PrivateKey |}.



End PemSample.

(** * Properties *)

(** ** Strings and formatted messages *)

Lemma append_empty_r (s : string) : s ++ "" = s.
Proof.
  induction s as [|x s' IH]; [reflexivity |].
  change (String x (s' ++ "") = String x s'). now rewrite IH.
Qed.

Lemma append_assoc (a b c : string) : (a ++ b) ++ c = a ++ (b ++ c).
Proof.
  induction a as [|x a' IH]; [reflexivity |].
  change (String x ((a' ++ b) ++ c) = String x (a' ++ (b ++ c))). now rewrite IH.
Qed.

Lemma carries_here (before sub after : string) : carries (before ++ sub ++ after) sub.
Proof. now exists before, after. Qed.

Lemma carries_end (before sub : string) : carries (before ++ sub) sub.
Proof. exists before, "". now rewrite append_empty_r. Qed.

Ltac format :=
  cbn [fmt.Errorf fmt.wrapped fmt.Sprintf fmt.verb];
  rewrite ?append_empty_r.

Lemma Errorf_malformed (decoded undecoded : Z) :
  fmt.Errorf "failed to decode PEM block: decoded bytes %d, undecoded %d"
    [fmt.Int decoded; fmt.Int undecoded]
  = MalformedPEM decoded undecoded.
Proof. unfold MalformedPEM. format. reflexivity. Qed.

Lemma Errorf_no_parser (preamble : PEMPreamble) :
  fmt.Errorf "unable to determine parser for PEM preamble: %s" [fmt.Str preamble]
  = ParserUndetermined preamble.
Proof. unfold ParserUndetermined. format. reflexivity. Qed.

Lemma Errorf_rejected (preamble : PEMPreamble) (e : errorValue) :
  fmt.Errorf "failed to parse private key given PEM preamble '%s': %w"
    [fmt.Str preamble; fmt.Err e]
  = KeyDecodeFailed preamble e.
Proof. unfold KeyDecodeFailed. format. reflexivity. Qed.

Lemma Errorf_unsupported (prvKey : any) :
  fmt.Errorf "unsupported private key type: %T" [fmt.Val prvKey]
  = UnsupportedKeyType (fmt.typeName prvKey).
Proof. unfold UnsupportedKeyType. format. reflexivity. Qed.

Lemma Errorf_undetermined (prvKey : any) :
  fmt.Errorf "failed to determine key algorithm for private key of type %T: %w"
    [fmt.Val prvKey; fmt.Err (UnsupportedKeyType (fmt.typeName prvKey))]
  = AlgorithmUndetermined (fmt.typeName prvKey).
Proof. unfold AlgorithmUndetermined. format. reflexivity. Qed.

(** ** The type switch *)

Lemma caseType_holds (v : any) (T : GoType) :
  caseType v [T; TPtr T] = true <-> holds v T.
Proof.
  unfold holds, typeOf, caseType. destruct v as [i|]; simpl.
  - rewrite bool_decide_eq_true, !elem_of_cons, elem_of_nil.
    split; [intros [->| [->|[]]] | intros [[= ->]|[= ->]]]; auto.
  - split; [discriminate | intros [|]; discriminate].
Qed.

Lemma caseType_false_holds (v : any) (T : GoType) :
  caseType v [T; TPtr T] = false <-> ~ holds v T.
Proof.
  rewrite <- caseType_holds. destruct (caseType v [T; TPtr T]); split; congruence.
Qed.

Lemma holds_supported (v : any) (T : GoType) :
  holds v T -> T ∈ supportedShapes -> TPtr T ∈ supportedShapes -> ~ unsupportedShape v.
Proof. intros [H|H] Hval Hptr Hun; apply Hun in H; contradiction. Qed.

(** The switch takes its first case on an RSA key, its second on an ECDSA
    key, its third on an Ed25519 key and its default on anything else. *)
Lemma privateKeyToAlgorithm_cases (prvKey : any) :
  (holds prvKey rsa.PrivateKey /\ privateKeyToAlgorithm prvKey = (RSA, None)) \/
  (holds prvKey ecdsa.PrivateKey /\ privateKeyToAlgorithm prvKey = (ECDSA, None)) \/
  (holds prvKey ed25519.PrivateKey /\ privateKeyToAlgorithm prvKey = (ED25519, None)) \/
  (unsupportedShape prvKey /\
   privateKeyToAlgorithm prvKey = ("", Some (UnsupportedKeyType (fmt.typeName prvKey)))).
Proof.
  unfold privateKeyToAlgorithm.
  destruct (caseType prvKey [rsa.PrivateKey; TPtr rsa.PrivateKey]) eqn:Hrsa.
  { left. split; [now apply caseType_holds | reflexivity]. }
  destruct (caseType prvKey [ecdsa.PrivateKey; TPtr ecdsa.PrivateKey]) eqn:Hec.
  { right; left. split; [now apply caseType_holds | reflexivity]. }
  destruct (caseType prvKey [ed25519.PrivateKey; TPtr ed25519.PrivateKey]) eqn:Hed.
  { right; right; left. split; [now apply caseType_holds | reflexivity]. }
  right; right; right. split; [| now rewrite Errorf_unsupported].
  apply caseType_false_holds in Hrsa, Hec, Hed.
  intros T HT Hin. unfold holds in *. unfold supportedShapes in Hin.
  rewrite !elem_of_cons, elem_of_nil in Hin.
  destruct Hin as [->|[->|[->|[->|[->|[->|[]]]]]]]; tauto.
Qed.

Lemma holds_exclusive (v : any) (T U : GoType) :
  holds v T -> holds v U -> T <> U -> TPtr T <> U -> T <> TPtr U -> False.
Proof.
  intros [HT|HT] [HU|HU] H1 H2 H3; rewrite HT in HU; injection HU; congruence.
Qed.

(** ** The registry *)

Section Registry.

Context {lib : GoStdlib}.

Lemma keyParsers_rsa :
  keyParsers !! PreamblePrivateKeyRSA =
  Some (fun der => let '(key, err) := x509_ParsePKCS1PrivateKey der in
                   (ptrToAny rsa.PrivateKey key, err)).
Proof. reflexivity. Qed.

Lemma keyParsers_ec :
  keyParsers !! PreamblePrivateKeyEC =
  Some (fun der => let '(key, err) := x509_ParseECPrivateKey der in
                   (ptrToAny ecdsa.PrivateKey key, err)).
Proof. reflexivity. Qed.

Lemma keyParsers_pkcs8 :
  keyParsers !! PreamblePrivateKeyPKCS8 = Some (fun der => x509_ParsePKCS8PrivateKey der).
Proof. reflexivity. Qed.

Lemma keyParsers_dom :
  dom keyParsers =
  ({[ PreamblePrivateKeyRSA; PreamblePrivateKeyEC; PreamblePrivateKeyPKCS8 ]} : gset string).
Proof.
  unfold keyParsers. cbn [list_to_map foldr fst snd uncurry].
  rewrite !dom_insert_L, dom_empty_L. set_solver.
Qed.

End Registry.

(** ** The paths of parsePrivateKeyPEM *)

Section Paths.

Context {lib : GoStdlib}.
Variable pemBlockToPEMPreamble : pem.Block -> PEMPreamble * error.

(** Every call takes one of the six paths. *)
Lemma parsePrivateKeyPEM_outcome (raw : bytes) :
  outcome pemBlockToPEMPreamble raw (parsePrivateKeyPEM pemBlockToPEMPreamble raw).
Proof.
  unfold parsePrivateKeyPEM.
  destruct (pem_Decode raw) as [[block|] rest] eqn:Hdecode.
  2:{ rewrite Errorf_malformed. now constructor. }
  destruct (pemBlockToPEMPreamble block) as [preamble [e|]] eqn:Hclass.
  { eapply outcome_unclassified; eassumption. }
  destruct (keyParsers !! preamble) as [parser|] eqn:Hparser.
  2:{ rewrite Errorf_no_parser. eapply outcome_no_parser; eassumption. }
  destruct (parser (pem.Bytes block)) as [prvKey [e|]] eqn:Hparse.
  { rewrite Errorf_rejected. eapply outcome_rejected; eassumption. }
  destruct (privateKeyToAlgorithm_cases prvKey)
    as [[_ Halg]|[[_ Halg]|[[_ Halg]|[_ Halg]]]]; rewrite Halg.
  4:{ rewrite Errorf_undetermined. eapply outcome_unsupported; eassumption. }
  all: eapply outcome_decoded; eassumption.
Qed.


(** The error of the classifier is returned as it is. *)
Lemma parsePrivateKeyPEM_unclassified (raw rest : bytes) block preamble e :
  pem_Decode raw = (Some block, rest) ->
  pemBlockToPEMPreamble block = (preamble, Some e) ->
  parsePrivateKeyPEM pemBlockToPEMPreamble raw = (None, "", Some e).
Proof. intros Hdecode Hclass. unfold parsePrivateKeyPEM. now rewrite Hdecode, Hclass. Qed.

(** The path of a block that is classified, has a parser and is parsed. *)
Lemma parsePrivateKeyPEM_parsed (raw : bytes) block rest preamble parser :
  pem_Decode raw = (Some block, rest) ->
  pemBlockToPEMPreamble block = (preamble, None) ->
  keyParsers !! preamble = Some parser ->
  parsePrivateKeyPEM pemBlockToPEMPreamble raw =
  match parser (pem.Bytes block) with
  | (_, Some e) => (None, "", Some (KeyDecodeFailed preamble e))
  | (prvKey, None) =>
      match privateKeyToAlgorithm prvKey with
      | (_, Some _) => (None, "", Some (AlgorithmUndetermined (fmt.typeName prvKey)))
      | (algorithm, None) => (prvKey, algorithm, None)
      end
  end.
Proof.
  intros Hdecode Hclass Hparser. unfold parsePrivateKeyPEM.
  rewrite Hdecode, Hclass, Hparser.
  destruct (parser (pem.Bytes block)) as [prvKey [e|]].
  { now rewrite Errorf_rejected. }
  destruct (privateKeyToAlgorithm_cases prvKey)
    as [[_ Halg]|[[_ Halg]|[[_ Halg]|[_ Halg]]]]; rewrite Halg; try reflexivity.
  now rewrite Errorf_undetermined.
Qed.

End Paths.

(** A classification without error names the shape of the key. *)
Lemma privateKeyToAlgorithm_consistent (prvKey : any) (algorithm : Algorithm) :
  privateKeyToAlgorithm prvKey = (algorithm, None) ->
  prvKey <> None /\
  algorithm ∈ [RSA; ECDSA; ED25519] /\
  (algorithm = RSA <-> holds prvKey rsa.PrivateKey) /\
  (algorithm = ECDSA <-> holds prvKey ecdsa.PrivateKey) /\
  (algorithm = ED25519 <-> holds prvKey ed25519.PrivateKey).
Proof.
  intros Halg.
  assert (Hnil : forall T, holds prvKey T -> prvKey <> None).
  { intros T [H|H] ->; discriminate. }
  destruct (privateKeyToAlgorithm_cases prvKey)
    as [[Hk Heq]|[[Hk Heq]|[[Hk Heq]|[_ Heq]]]];
    rewrite Heq in Halg; [| | | discriminate];
    injection Halg as <-; (split; [now apply (Hnil _ Hk) |]);
    (split; [set_solver |]);
    repeat split; intros H; try assumption; try reflexivity; try discriminate;
    exfalso; eapply (holds_exclusive _ _ _ Hk H); discriminate.
Qed.

(** ** Properties of the results *)

Section Results.

Context {lib : GoStdlib}.
Variable pemBlockToPEMPreamble : pem.Block -> PEMPreamble * error.

(** C1.  When [parsePrivateKeyPEM] succeeds, the returned algorithm is RSA
    exactly when the returned key is an [rsa.PrivateKey] (value or
    pointer), ECDSA exactly when it is an [ecdsa.PrivateKey], ED25519
    exactly when it is an [ed25519.PrivateKey]. *)
Theorem parsePrivateKeyPEM_consistent (raw : bytes) (key : any) (algorithm : Algorithm) :
  parsePrivateKeyPEM pemBlockToPEMPreamble raw = (key, algorithm, None) ->
  (algorithm = RSA <-> holds key rsa.PrivateKey) /\
  (algorithm = ECDSA <-> holds key ecdsa.PrivateKey) /\
  (algorithm = ED25519 <-> holds key ed25519.PrivateKey).
Proof.
  intros Hok. pose proof (parsePrivateKeyPEM_outcome pemBlockToPEMPreamble raw) as Hpath.
  rewrite Hok in Hpath. inversion Hpath; subst.
  now apply privateKeyToAlgorithm_consistent.
Qed.

(** C2.  Let the classifier name the label [PRIVATE KEY]
    [PreamblePrivateKeyPKCS8].  When the envelope has that label and the
    PKCS#8 parser returns a key without error, [parsePrivateKeyPEM]
    succeeds with ED25519 when the key is an Ed25519 key.  The algorithm
    follows the key and not the label: under the very same label an RSA
    key is given RSA and an ECDSA key ECDSA, and in each case the algorithm
    is what the type switch says of the key. *)
Theorem parsePrivateKeyPEM_pkcs8_ed25519 (raw rest : bytes) (block : pem.Block) (key : any) :
  (forall b, pem.Type_ b = "PRIVATE KEY" ->
             pemBlockToPEMPreamble b = (PreamblePrivateKeyPKCS8, None)) ->
  pem_Decode raw = (Some block, rest) ->
  pem.Type_ block = "PRIVATE KEY" ->
  x509_ParsePKCS8PrivateKey (pem.Bytes block) = (key, None) ->
  (holds key ed25519.PrivateKey ->
   parsePrivateKeyPEM pemBlockToPEMPreamble raw = (key, ED25519, None) /\
   privateKeyToAlgorithm key = (ED25519, None)) /\
  (holds key rsa.PrivateKey ->
   parsePrivateKeyPEM pemBlockToPEMPreamble raw = (key, RSA, None) /\
   privateKeyToAlgorithm key = (RSA, None)) /\
  (holds key ecdsa.PrivateKey ->
   parsePrivateKeyPEM pemBlockToPEMPreamble raw = (key, ECDSA, None) /\
   privateKeyToAlgorithm key = (ECDSA, None)).
Proof.
  intros Hcontract Hdecode Hlabel Hparse. apply Hcontract in Hlabel as Hclass.
  rewrite (parsePrivateKeyPEM_parsed _ _ _ _ _ _ Hdecode Hclass keyParsers_pkcs8).
  cbv beta. rewrite Hparse.
  destruct (privateKeyToAlgorithm_cases key)
    as [[Hk Heq]|[[Hk Heq]|[[Hk Heq]|[Hun Heq]]]]; rewrite Heq.
  1-3: (split; [| split]); intros H; try (split; reflexivity);
       exfalso; apply (holds_exclusive _ _ _ Hk H); discriminate.
  (split; [| split]); intros H; exfalso; apply (holds_supported _ _ H); try exact Hun;
    unfold supportedShapes; repeat constructor.
Qed.

(** C3.  When the label selects a parser and the parser rejects the
    payload, [parsePrivateKeyPEM] returns no key, the empty algorithm and
    the KeyDecodeFailed error, which wraps the parser's error and whose
    message carries the preamble and the parser's message.  In particular,
    with a classifier that names the label [RSA PRIVATE KEY]
    [PreamblePrivateKeyRSA], an envelope of that label whose payload the
    PKCS#8 parser reads as an ECDSA key and the PKCS#1 parser rejects
    fails so. *)
Theorem parsePrivateKeyPEM_rejected :
  (forall (raw rest : bytes) (block : pem.Block) (preamble : PEMPreamble)
          (parser : keyParser) (key : any) (e : errorValue),
      pem_Decode raw = (Some block, rest) ->
      pemBlockToPEMPreamble block = (preamble, None) ->
      keyParsers !! preamble = Some parser ->
      parser (pem.Bytes block) = (key, Some e) ->
      parsePrivateKeyPEM pemBlockToPEMPreamble raw
      = (None, "", Some (KeyDecodeFailed preamble e)) /\
      Unwrap (KeyDecodeFailed preamble e) = Some e /\
      carries (Error (KeyDecodeFailed preamble e)) preamble /\
      carries (Error (KeyDecodeFailed preamble e)) (Error e)) /\
  (forall (raw rest : bytes) (block : pem.Block) (ecKey : GoValue)
          (rsaKey : option GoValue) (e : errorValue),
      (forall b, pem.Type_ b = "RSA PRIVATE KEY" ->
                 pemBlockToPEMPreamble b = (PreamblePrivateKeyRSA, None)) ->
      pem_Decode raw = (Some block, rest) ->
      pem.Type_ block = "RSA PRIVATE KEY" ->
      x509_ParsePKCS8PrivateKey (pem.Bytes block)
      = (ptrToAny ecdsa.PrivateKey (Some ecKey), None) ->
      x509_ParsePKCS1PrivateKey (pem.Bytes block) = (rsaKey, Some e) ->
      parsePrivateKeyPEM pemBlockToPEMPreamble raw
      = (None, "", Some (KeyDecodeFailed PreamblePrivateKeyRSA e))).
Proof.
  split.
  - intros raw rest block preamble parser key e Hdecode Hclass Hparser Hparse.
    split; [| split; [reflexivity | split]].
    + rewrite (parsePrivateKeyPEM_parsed _ _ _ _ _ _ Hdecode Hclass Hparser).
      now rewrite Hparse.
    + unfold KeyDecodeFailed, Error at 1.
      rewrite <- (append_assoc "failed to parse private key given PEM preamble '").
      rewrite append_assoc. apply carries_here.
    + unfold KeyDecodeFailed, Error at 1.
      rewrite <- !append_assoc. apply carries_end.
  - intros raw rest block ecKey rsaKey e Hcontract Hdecode Hlabel _ Hparse.
    apply Hcontract in Hlabel as Hclass.
    rewrite (parsePrivateKeyPEM_parsed _ _ _ _ _ _ Hdecode Hclass keyParsers_rsa).
    cbv beta. now rewrite Hparse.
Qed.

(** C5.  When [pem.Decode] finds no block, [parsePrivateKeyPEM] returns no
    key, the empty algorithm and the MalformedPEM error, whose message
    carries the number of decoded bytes and the number of undecoded
    bytes. *)
Theorem parsePrivateKeyPEM_malformed (raw rest : bytes) :
  pem_Decode raw = (None, rest) ->
  parsePrivateKeyPEM pemBlockToPEMPreamble raw
  = (None, "", Some (MalformedPEM (len raw - len rest) (len rest))) /\
  Error (MalformedPEM (len raw - len rest) (len rest))
  = "failed to decode PEM block: decoded bytes " ++ fmt.itoa (len raw - len rest)
    ++ ", undecoded " ++ fmt.itoa (len rest).
Proof.
  intros Hdecode. split; [| reflexivity].
  unfold parsePrivateKeyPEM. now rewrite Hdecode, Errorf_malformed.
Qed.


(** C9.  When the selected parser returns, without error, a key that has
    none of the six supported types, [privateKeyToAlgorithm] returns the
    empty algorithm with the UnsupportedKeyType error, and
    [parsePrivateKeyPEM] returns no key, the empty algorithm and an error
    that wraps it; both messages carry the name of the key's type. *)
Theorem parsePrivateKeyPEM_unsupported (raw rest : bytes) (block : pem.Block)
    (preamble : PEMPreamble) (parser : keyParser) (key : any) :
  pem_Decode raw = (Some block, rest) ->
  pemBlockToPEMPreamble block = (preamble, None) ->
  keyParsers !! preamble = Some parser ->
  parser (pem.Bytes block) = (key, None) ->
  unsupportedShape key ->
  privateKeyToAlgorithm key = ("", Some (UnsupportedKeyType (fmt.typeName key))) /\
  parsePrivateKeyPEM pemBlockToPEMPreamble raw
  = (None, "", Some (AlgorithmUndetermined (fmt.typeName key))) /\
  UnsupportedKeyType (fmt.typeName key) ∈ chain (AlgorithmUndetermined (fmt.typeName key)) /\
  carries (Error (UnsupportedKeyType (fmt.typeName key))) (fmt.typeName key) /\
  carries (Error (AlgorithmUndetermined (fmt.typeName key))) (fmt.typeName key).
Proof.
  intros Hdecode Hclass Hparser Hparse Hshape.
  assert (Halg : privateKeyToAlgorithm key
                 = ("", Some (UnsupportedKeyType (fmt.typeName key)))).
  { destruct (privateKeyToAlgorithm_cases key)
      as [[Hk _]|[[Hk _]|[[Hk _]|[_ Heq]]]]; [| | | exact Heq];
      exfalso; apply (holds_supported _ _ Hk); try exact Hshape;
      unfold supportedShapes; repeat constructor. }
  split; [exact Halg |]. split.
  { rewrite (parsePrivateKeyPEM_parsed _ _ _ _ _ _ Hdecode Hclass Hparser).
    now rewrite Hparse, Halg. }
  split; [simpl; set_solver |]. split.
  - apply carries_end.
  - apply carries_here.
Qed.

(** C10.  Every result of [parsePrivateKeyPEM] is a failure (an error, no
    key, the empty algorithm, which is none of RSA, ECDSA, ED25519) or a
    success (no error, a key, one of the three algorithms), and never
    both. *)
Theorem parsePrivateKeyPEM_all_or_nothing (raw : bytes) :
  (isFailure (parsePrivateKeyPEM pemBlockToPEMPreamble raw) /\
   ~ isSuccess (parsePrivateKeyPEM pemBlockToPEMPreamble raw)) \/
  (isSuccess (parsePrivateKeyPEM pemBlockToPEMPreamble raw) /\
   ~ isFailure (parsePrivateKeyPEM pemBlockToPEMPreamble raw)).
Proof.
  assert (Hempty : ("" : Algorithm) ∉ [RSA; ECDSA; ED25519]).
  { rewrite !not_elem_of_cons. repeat split; [discriminate.. | apply not_elem_of_nil]. }
  destruct (parsePrivateKeyPEM_outcome pemBlockToPEMPreamble raw)
    as [ | | | | | ? ? ? ? key algorithm _ _ _ _ Halg];
    [left; (split; [repeat split; [discriminate | exact Hempty]
                   | intros (Herr & _); discriminate]) .. |].
  right. apply privateKeyToAlgorithm_consistent in Halg as (Hkey & Hmember & _).
  split; [repeat split; assumption |].
  intros (Herr & _). now apply Herr.
Qed.

End Results.

(** ** The classifier of the spec *)

Lemma classify_preamble_unrecognized (label : string) :
  label ∉ ["RSA PRIVATE KEY"; "EC PRIVATE KEY"; "PRIVATE KEY"] ->
  classify_preamble label = ("", Some (UnrecognizedPreamble label)).
Proof.
  rewrite !not_elem_of_cons. intros (Hrsa & Hec & Hpkcs8 & _).
  unfold classify_preamble. now rewrite !decide_False.
Qed.

Lemma classify_preamble_recognized (label : string) :
  label ∈ ["RSA PRIVATE KEY"; "EC PRIVATE KEY"; "PRIVATE KEY"] ->
  classify_preamble label = (label, None).
Proof.
  rewrite !elem_of_cons, elem_of_nil. now intros [->|[->|[->|[]]]].
Qed.

(** ** Properties of the dispatcher *)

Section Dispatch.

Context {lib : GoStdlib}.

(** C4.  When the label of the envelope is none of [RSA PRIVATE KEY],
    [EC PRIVATE KEY], [PRIVATE KEY], [decode_private_key] returns no key,
    the empty algorithm and the very error of the classifier, which is
    UnrecognizedPreamble with the label as it stands. *)
Theorem decode_private_key_unrecognized (raw rest : bytes) (block : pem.Block) :
  pem_Decode raw = (Some block, rest) ->
  pem.Type_ block ∉ ["RSA PRIVATE KEY"; "EC PRIVATE KEY"; "PRIVATE KEY"] ->
  decode_private_key raw = (None, "", snd (classify_preamble (pem.Type_ block))) /\
  snd (classify_preamble (pem.Type_ block)) = Some (UnrecognizedPreamble (pem.Type_ block)) /\
  carries (Error (UnrecognizedPreamble (pem.Type_ block))) (pem.Type_ block).
Proof.
  intros Hdecode Hlabel. apply classify_preamble_unrecognized in Hlabel.
  rewrite Hlabel. split; [| split; [reflexivity | apply carries_end]].
  now apply (parsePrivateKeyPEM_unclassified classify_block raw rest block "").
Qed.

(** C7.  The type switch gives RSA to an [rsa.PrivateKey] and to a pointer
    to it, and ECDSA to an [ecdsa.PrivateKey] and to a pointer to it. *)
Theorem privateKeyToAlgorithm_value_pointer (v : GoValue) :
  privateKeyToAlgorithm (Some (Eface rsa.PrivateKey v)) = (RSA, None) /\
  privateKeyToAlgorithm (ptrToAny rsa.PrivateKey (Some v)) = (RSA, None) /\
  privateKeyToAlgorithm (Some (Eface ecdsa.PrivateKey v)) = (ECDSA, None) /\
  privateKeyToAlgorithm (ptrToAny ecdsa.PrivateKey (Some v)) = (ECDSA, None).
Proof. repeat split. Qed.

(** C8.  The registry has a parser for a preamble exactly when the
    preamble is one of [PreamblePrivateKeyRSA], [PreamblePrivateKeyEC],
    [PreamblePrivateKeyPKCS8]; and when the classifier returns one of
    them, [parsePrivateKeyPEM] does not return the error of the missing
    parser. *)
Theorem keyParsers_closed :
  (forall preamble : PEMPreamble,
      preamble ∈ [PreamblePrivateKeyRSA; PreamblePrivateKeyEC; PreamblePrivateKeyPKCS8]
      <-> is_Some (keyParsers !! preamble)) /\
  (forall (pemBlockToPEMPreamble : pem.Block -> PEMPreamble * error)
          (raw rest : bytes) (block : pem.Block) (preamble : PEMPreamble),
      pem_Decode raw = (Some block, rest) ->
      pemBlockToPEMPreamble block = (preamble, None) ->
      preamble ∈ [PreamblePrivateKeyRSA; PreamblePrivateKeyEC; PreamblePrivateKeyPKCS8] ->
      forall unknown : PEMPreamble,
        snd (parsePrivateKeyPEM pemBlockToPEMPreamble raw)
        <> Some (ParserUndetermined unknown)).
Proof.
  assert (Hdom : forall preamble : PEMPreamble,
             preamble ∈ [PreamblePrivateKeyRSA; PreamblePrivateKeyEC; PreamblePrivateKeyPKCS8]
             <-> is_Some (keyParsers !! preamble)).
  { intros preamble. rewrite <- (elem_of_dom keyParsers), keyParsers_dom.
    rewrite !elem_of_cons, elem_of_nil, !elem_of_union, !elem_of_singleton. tauto. }
  split; [exact Hdom |].
  intros classifier raw rest block preamble Hdecode Hclass Hin unknown.
  apply Hdom in Hin as [parser Hparser].
  rewrite (parsePrivateKeyPEM_parsed _ _ _ _ _ _ Hdecode Hclass Hparser).
  destruct (parser (pem.Bytes block)) as [key [e|]]; [discriminate |].
  destruct (privateKeyToAlgorithm key) as [algorithm [e|]]; discriminate.
Qed.

End Dispatch.

(** ** Further properties of the type switch *)

(** The switch reads the dynamic type only. *)
Lemma caseType_typeOf (v w : any) (types : list GoType) :
  typeOf v = typeOf w -> caseType v types = caseType w types.
Proof.
  destruct v as [i|], w as [j|]; simpl; try discriminate; [| reflexivity].
  now intros [= ->].
Qed.

Lemma typeName_typeOf (v w : any) : typeOf v = typeOf w -> fmt.typeName v = fmt.typeName w.
Proof.
  destruct v as [i|], w as [j|]; simpl; try discriminate; [| reflexivity].
  now intros [= ->].
Qed.

(** X1.  A key that holds an [rsa.PrivateKey], an [ecdsa.PrivateKey] or an
    [ed25519.PrivateKey], as a value or behind a pointer and whatever the
    value is, is given RSA, ECDSA or ED25519 without error. *)
Theorem privateKeyToAlgorithm_holds (prvKey : any) :
  (holds prvKey rsa.PrivateKey -> privateKeyToAlgorithm prvKey = (RSA, None)) /\
  (holds prvKey ecdsa.PrivateKey -> privateKeyToAlgorithm prvKey = (ECDSA, None)) /\
  (holds prvKey ed25519.PrivateKey -> privateKeyToAlgorithm prvKey = (ED25519, None)).
Proof.
  destruct (privateKeyToAlgorithm_cases prvKey)
    as [[Hk Heq]|[[Hk Heq]|[[Hk Heq]|[Hun Heq]]]].
  1-3: repeat split; intros H; try exact Heq;
       exfalso; apply (holds_exclusive _ _ _ Hk H); discriminate.
  repeat split; intros H; exfalso; apply (holds_supported _ _ H); try exact Hun;
    unfold supportedShapes; repeat constructor.
Qed.

(** X2.  The switch fails exactly on the keys that have none of the six
    types: on those it returns the empty algorithm with the error that
    names the type, on all others one of RSA, ECDSA, ED25519 and no
    error. *)
Theorem privateKeyToAlgorithm_error_iff (prvKey : any) :
  (unsupportedShape prvKey <->
   privateKeyToAlgorithm prvKey = ("", Some (UnsupportedKeyType (fmt.typeName prvKey)))) /\
  (~ unsupportedShape prvKey <->
   exists algorithm : Algorithm,
     algorithm ∈ [RSA; ECDSA; ED25519] /\ privateKeyToAlgorithm prvKey = (algorithm, None)).
Proof.
  assert (Hsup : forall T, holds prvKey T -> T ∈ supportedShapes ->
                           TPtr T ∈ supportedShapes -> ~ unsupportedShape prvKey).
  { intros T. apply holds_supported. }
  destruct (privateKeyToAlgorithm_cases prvKey)
    as [[Hk Heq]|[[Hk Heq]|[[Hk Heq]|[Hun Heq]]]]; rewrite Heq.
  4:{ split; [tauto |]. split; [tauto |]. intros (algorithm & _ & [=]). }
  all: assert (Hno : ~ unsupportedShape prvKey)
         by (apply (Hsup _ Hk); unfold supportedShapes; repeat constructor).
  all: split; [split; [tauto | discriminate] |].
  all: split; [| tauto]; intros _; eexists; split; [| reflexivity]; repeat constructor.
Qed.

(** X3.  The switch looks at the dynamic type of the key and at nothing
    else: two keys of the same dynamic type get the same answer, whatever
    they hold (a nil pointer as well). *)
Theorem privateKeyToAlgorithm_type_only (prvKey prvKey' : any) :
  typeOf prvKey = typeOf prvKey' ->
  privateKeyToAlgorithm prvKey = privateKeyToAlgorithm prvKey'.
Proof.
  intros Htype. unfold privateKeyToAlgorithm.
  rewrite !(caseType_typeOf _ _ _ Htype), !Errorf_unsupported.
  now rewrite (typeName_typeOf _ _ Htype).
Qed.

(** ** Further properties of the registry *)

Section RegistryMore.

Context {lib : GoStdlib}.

Lemma keyParsers_lookup_None (preamble : PEMPreamble) :
  preamble ∉ [PreamblePrivateKeyRSA; PreamblePrivateKeyEC; PreamblePrivateKeyPKCS8] ->
  keyParsers !! preamble = None.
Proof.
  intros Hout. apply (not_elem_of_dom keyParsers). rewrite keyParsers_dom.
  rewrite !not_elem_of_cons in Hout. destruct Hout as (Hrsa & Hec & Hpkcs8 & _).
  rewrite !elem_of_union, !elem_of_singleton. tauto.
Qed.

Lemma keyParsers_lookup_Some (preamble : PEMPreamble) (parser : keyParser) :
  keyParsers !! preamble = Some parser ->
  preamble = PreamblePrivateKeyRSA \/ preamble = PreamblePrivateKeyEC
  \/ preamble = PreamblePrivateKeyPKCS8.
Proof.
  intros Hparser. assert (Hin : preamble ∈ dom keyParsers) by (apply elem_of_dom; eauto).
  rewrite keyParsers_dom, !elem_of_union, !elem_of_singleton in Hin. tauto.
Qed.

(** X4.  The parsers that the registry holds for the two legacy preambles
    never return the nil interface: what they return is a
    [*rsa.PrivateKey] or a [*ecdsa.PrivateKey] also when the library
    function fails or hands back a nil pointer, and the error is the
    library's. *)
Theorem keyParsers_legacy_typed (preamble : PEMPreamble) (parser : keyParser) (der : bytes) :
  keyParsers !! preamble = Some parser ->
  preamble <> PreamblePrivateKeyPKCS8 ->
  fst (parser der) <> None /\
  (preamble = PreamblePrivateKeyRSA /\
   typeOf (fst (parser der)) = Some (TPtr rsa.PrivateKey) /\
   snd (parser der) = snd (x509_ParsePKCS1PrivateKey der)
   \/
   preamble = PreamblePrivateKeyEC /\
   typeOf (fst (parser der)) = Some (TPtr ecdsa.PrivateKey) /\
   snd (parser der) = snd (x509_ParseECPrivateKey der)).
Proof.
  intros Hparser Hlegacy.
  destruct (keyParsers_lookup_Some _ _ Hparser) as [-> | [-> | ->]]; [| | contradiction].
  - rewrite keyParsers_rsa in Hparser. injection Hparser as <-.
    destruct (x509_ParsePKCS1PrivateKey der) as [key err].
    split; [discriminate | left; repeat split].
  - rewrite keyParsers_ec in Hparser. injection Hparser as <-.
    destruct (x509_ParseECPrivateKey der) as [key err].
    split; [discriminate | right; repeat split].
Qed.

End RegistryMore.

(** ** Further properties of parsePrivateKeyPEM *)

Section ResultsMore.

Context {lib : GoStdlib}.
Variable pemBlockToPEMPreamble : pem.Block -> PEMPreamble * error.

(** X5.  When the classifier returns, without error, a preamble that the
    registry does not hold, [parsePrivateKeyPEM] returns no key, the empty
    algorithm and the error of the missing parser, whose message carries
    the preamble; no parser is tried. *)
Theorem parsePrivateKeyPEM_no_parser (raw rest : bytes) (block : pem.Block)
    (preamble : PEMPreamble) :
  pem_Decode raw = (Some block, rest) ->
  pemBlockToPEMPreamble block = (preamble, None) ->
  preamble ∉ [PreamblePrivateKeyRSA; PreamblePrivateKeyEC; PreamblePrivateKeyPKCS8] ->
  parsePrivateKeyPEM pemBlockToPEMPreamble raw
  = (None, "", Some (ParserUndetermined preamble)) /\
  carries (Error (ParserUndetermined preamble)) preamble.
Proof.
  intros Hdecode Hclass Hout. split; [| apply carries_end].
  unfold parsePrivateKeyPEM.
  now rewrite Hdecode, Hclass, (keyParsers_lookup_None _ Hout), Errorf_no_parser.
Qed.

(** X6.  Under the preamble [PreamblePrivateKeyRSA] there are two results
    only: the error of [x509.ParsePKCS1PrivateKey] wrapped, or the pointer
    it returned as a [*rsa.PrivateKey] with the algorithm RSA, a nil
    pointer included.  The error of an unsupported key type cannot
    occur. *)
Theorem parsePrivateKeyPEM_rsa_path (raw rest : bytes) (block : pem.Block) :
  pem_Decode raw = (Some block, rest) ->
  pemBlockToPEMPreamble block = (PreamblePrivateKeyRSA, None) ->
  parsePrivateKeyPEM pemBlockToPEMPreamble raw =
  match x509_ParsePKCS1PrivateKey (pem.Bytes block) with
  | (_, Some e) => (None, "", Some (KeyDecodeFailed PreamblePrivateKeyRSA e))
  | (key, None) => (ptrToAny rsa.PrivateKey key, RSA, None)
  end.
Proof.
  intros Hdecode Hclass.
  rewrite (parsePrivateKeyPEM_parsed _ _ _ _ _ _ Hdecode Hclass keyParsers_rsa).
  cbv beta. now destruct (x509_ParsePKCS1PrivateKey (pem.Bytes block)) as [key [e|]].
Qed.

(** X7.  Under the preamble [PreamblePrivateKeyEC] there are two results
    only: the error of [x509.ParseECPrivateKey] wrapped, or the pointer it
    returned as a [*ecdsa.PrivateKey] with the algorithm ECDSA, a nil
    pointer included. *)
Theorem parsePrivateKeyPEM_ec_path (raw rest : bytes) (block : pem.Block) :
  pem_Decode raw = (Some block, rest) ->
  pemBlockToPEMPreamble block = (PreamblePrivateKeyEC, None) ->
  parsePrivateKeyPEM pemBlockToPEMPreamble raw =
  match x509_ParseECPrivateKey (pem.Bytes block) with
  | (_, Some e) => (None, "", Some (KeyDecodeFailed PreamblePrivateKeyEC e))
  | (key, None) => (ptrToAny ecdsa.PrivateKey key, ECDSA, None)
  end.
Proof.
  intros Hdecode Hclass.
  rewrite (parsePrivateKeyPEM_parsed _ _ _ _ _ _ Hdecode Hclass keyParsers_ec).
  cbv beta. now destruct (x509_ParseECPrivateKey (pem.Bytes block)) as [key [e|]].
Qed.

(** X8.  Of a decoded block [parsePrivateKeyPEM] uses what the classifier
    says of it and its bytes: two inputs whose blocks get the same verdict
    and have the same bytes give the same result, whatever their headers
    and whatever follows the block. *)
Theorem parsePrivateKeyPEM_bytes_only (raw raw' rest rest' : bytes) (block block' : pem.Block) :
  pem_Decode raw = (Some block, rest) ->
  pem_Decode raw' = (Some block', rest') ->
  pemBlockToPEMPreamble block = pemBlockToPEMPreamble block' ->
  pem.Bytes block = pem.Bytes block' ->
  parsePrivateKeyPEM pemBlockToPEMPreamble raw = parsePrivateKeyPEM pemBlockToPEMPreamble raw'.
Proof.
  intros Hdecode Hdecode' Hclass Hbytes. unfold parsePrivateKeyPEM.
  now rewrite Hdecode, Hdecode', Hclass, Hbytes.
Qed.

(** X9.  [parsePrivateKeyPEM] succeeds with a key and an algorithm exactly
    when every stage succeeds: a block is decoded, the classifier names its
    preamble without error, the registry has a parser for it, the parser
    returns that very key without error and the type switch gives that
    algorithm to it. *)
Theorem parsePrivateKeyPEM_success_iff (raw : bytes) (key : any) (algorithm : Algorithm) :
  parsePrivateKeyPEM pemBlockToPEMPreamble raw = (key, algorithm, None) <->
  exists (block : pem.Block) (rest : bytes) (preamble : PEMPreamble) (parser : keyParser),
    pem_Decode raw = (Some block, rest) /\
    pemBlockToPEMPreamble block = (preamble, None) /\
    keyParsers !! preamble = Some parser /\
    parser (pem.Bytes block) = (key, None) /\
    privateKeyToAlgorithm key = (algorithm, None).
Proof.
  split.
  - intros Hok. pose proof (parsePrivateKeyPEM_outcome pemBlockToPEMPreamble raw) as Hpath.
    rewrite Hok in Hpath. inversion Hpath; subst. eauto 10.
  - intros (block & rest & preamble & parser & Hdecode & Hclass & Hparser & Hparse & Halg).
    rewrite (parsePrivateKeyPEM_parsed _ _ _ _ _ _ Hdecode Hclass Hparser).
    now rewrite Hparse, Halg.
Qed.

(** X10.  When [pem.Decode] finds no block and returns the whole input as
    the rest, the message of the error says that 0 bytes were decoded and
    gives the length of the input as undecoded. *)
Theorem parsePrivateKeyPEM_malformed_whole (raw : bytes) :
  pem_Decode raw = (None, raw) ->
  parsePrivateKeyPEM pemBlockToPEMPreamble raw
  = (None, "", Some (errorString ("failed to decode PEM block: decoded bytes 0, undecoded "
                                  ++ fmt.itoa (len raw)))).
Proof.
  intros Hdecode. unfold parsePrivateKeyPEM.
  rewrite Hdecode, Errorf_malformed, Z.sub_diag. reflexivity.
Qed.

End ResultsMore.

(** ** The loop of the model of pem.Decode *)

Section PemModel.

Import encoding_pem.

Lemma getLine_rest_le (data : bytes) : (length (snd (getLine data)) <= length data)%nat.
Proof.
  unfold getLine. destruct (Index data [x0a]) as [i|]; simpl; [| lia].
  rewrite length_drop. lia.
Qed.

Lemma getLine_rest_lt (data : bytes) :
  data <> [] -> (length (snd (getLine data)) < length data)%nat.
Proof.
  intros Hdata. assert (0 < length data)%nat by (destruct data; [congruence | simpl; lia]).
  unfold getLine. destruct (Index data [x0a]) as [i|]; simpl; [| lia].
  rewrite length_drop. lia.
Qed.

Lemma readHeaders_fuel (fuel : nat) (headers : gmap string string) (rest : bytes) :
  (length rest < fuel)%nat ->
  match readHeaders fuel headers rest with
  | HeadersFuel => False
  | HeadersRead _ rest' => (length rest' <= length rest)%nat
  | HeadersNoInput => True
  end.
Proof.
  revert headers rest. induction fuel as [|fuel IH]; intros headers rest Hfuel; [lia |].
  destruct rest as [|c rest']; [exact I |]. cbn [readHeaders].
  pose proof (getLine_rest_lt (c :: rest') ltac:(discriminate)) as Hlt.
  destruct (getLine (c :: rest')) as [line next]. cbn [snd] in Hlt.
  destruct (Cut line colon) as [[key val]|]; [| lia].
  specialize (IH (<[string_of_list_byte (TrimSpace key) := string_of_list_byte (TrimSpace val)]> headers)
                next ltac:(simpl in *; lia)).
  destruct (readHeaders fuel _ next); try exact IH. simpl in *. lia.
Qed.

Lemma attempt_fuel (rest : bytes) :
  match attempt rest with
  | OutOfFuel => False
  | Continue rest' => (length rest' <= length rest)%nat
  | _ => True
  end.
Proof.
  unfold attempt. pose proof (getLine_rest_le rest) as Hline.
  destruct (getLine rest) as [typeLine rest1]. cbn [snd] in Hline.
  destruct (negb (HasSuffix typeLine pemEndOfLine)); [exact Hline |].
  pose proof (readHeaders_fuel (S (length rest1)) ∅ rest1 ltac:(lia)) as Hheaders.
  destruct (readHeaders (S (length rest1)) ∅ rest1) as [headers rest2| |];
    [| exact I | exact Hheaders].
  assert (Hle : (length rest2 <= length rest)%nat) by lia.
  repeat case_match; simplify_eq; try exact I; exact Hle.
Qed.

Lemma Index_nonempty (s sep : bytes) (i : nat) : Index s sep = Some i -> sep <> [] -> s <> [].
Proof. intros Hi Hsep ->. destruct sep; [congruence | discriminate]. Qed.

Lemma HasPrefix_nonempty (s prefix : bytes) : HasPrefix s prefix = true -> prefix <> [] -> s <> [].
Proof. intros Hp Hsep ->. destruct prefix; [congruence | discriminate]. Qed.

Lemma decodeLoop_fuel (fuel : nat) (data rest : bytes) :
  (length rest < fuel)%nat -> is_Some (decodeLoop fuel data rest).
Proof.
  revert rest. induction fuel as [|fuel IH]; intros rest Hfuel; [lia |].
  cbn [decodeLoop].
  assert (Hstart : forall rest1,
             (if HasPrefix rest (tail pemStart) then Some (drop (length pemStart - 1) rest)
              else snd <$> Cut rest pemStart) = Some rest1 ->
             (length rest1 < length rest)%nat).
  { intros rest1. destruct (HasPrefix rest (tail pemStart)) eqn:Hprefix.
    - intros [= <-]. apply HasPrefix_nonempty in Hprefix; [| discriminate].
      rewrite length_drop. destruct rest; [congruence | simpl; lia].
    - unfold Cut. destruct (Index rest pemStart) as [i|] eqn:Hi; [| discriminate].
      intros [= <-]. apply Index_nonempty in Hi; [| discriminate].
      rewrite length_drop. destruct rest; [congruence | simpl; lia]. }
  destruct (if HasPrefix rest (tail pemStart) then _ else _) as [rest1|]; [| eauto].
  specialize (Hstart rest1 eq_refl). pose proof (attempt_fuel rest1) as Hattempt.
  destruct (attempt rest1) as [p rest2|rest2| |]; [eauto | | eauto | contradiction].
  apply IH. lia.
Qed.

(** When no block is found the rest is the whole input. *)
Lemma decodeLoop_nil (fuel : nat) (data rest rest' : bytes) :
  decodeLoop fuel data rest = Some (None, rest') -> rest' = data.
Proof.
  revert rest. induction fuel as [|fuel IH]; intros rest; [discriminate |].
  cbn [decodeLoop].
  destruct (if HasPrefix rest (tail pemStart) then _ else _) as [rest1|];
    [| now intros [= <-]].
  destruct (attempt rest1) as [p rest2|rest2| |]; try discriminate.
  - apply IH.
  - now intros [= <-].
Qed.

(** The loop of [Decode] always ends. *)
Lemma Decode_decodeLoop (data : bytes) :
  decodeLoop (S (length data)) data data = Some (Decode data).
Proof.
  unfold Decode. destruct (decodeLoop_fuel (S (length data)) data data ltac:(lia)) as [r Hr].
  now rewrite Hr.
Qed.

Lemma Decode_nil (data rest : bytes) : Decode data = (None, rest) -> rest = data.
Proof.
  intros Hnil. apply (decodeLoop_nil (S (length data)) data data).
  now rewrite Decode_decodeLoop, Hnil.
Qed.

End PemModel.

(** ** Runs on the stand-in library *)

Lemma parsePrivateKeyPEM_consistent_witness :
  @parsePrivateKeyPEM Sample.lib classify_block (Sample.text "Pdk;")
  = (Sample.ed25519Key, ED25519, None) /\
  ((ED25519 = RSA <-> holds Sample.ed25519Key rsa.PrivateKey) /\
   (ED25519 = ECDSA <-> holds Sample.ed25519Key ecdsa.PrivateKey) /\
   (ED25519 = ED25519 <-> holds Sample.ed25519Key ed25519.PrivateKey)).
Proof.
  split; [vm_compute; reflexivity |].
  apply (@parsePrivateKeyPEM_consistent Sample.lib classify_block (Sample.text "Pdk;")).
  vm_compute; reflexivity.
Defined.

Lemma parsePrivateKeyPEM_pkcs8_ed25519_witness :
  (@parsePrivateKeyPEM Sample.lib classify_block (Sample.text "Pdk;")
   = (Sample.ed25519Key, ED25519, None) /\
   privateKeyToAlgorithm Sample.ed25519Key = (ED25519, None)) /\
  (@parsePrivateKeyPEM Sample.lib classify_block (Sample.text "Prk;")
   = (Sample.rsaKey, RSA, None) /\
   privateKeyToAlgorithm Sample.rsaKey = (RSA, None)).
Proof.
  split.
  - apply (@parsePrivateKeyPEM_pkcs8_ed25519 Sample.lib classify_block
             (Sample.text "Pdk;") [] (Sample.block "PRIVATE KEY" "dk") Sample.ed25519Key).
    + intros b Hb. unfold classify_block. rewrite Hb. reflexivity.
    + vm_compute; reflexivity.
    + reflexivity.
    + vm_compute; reflexivity.
    + left. reflexivity.
  - apply (@parsePrivateKeyPEM_pkcs8_ed25519 Sample.lib classify_block
             (Sample.text "Prk;") [] (Sample.block "PRIVATE KEY" "rk") Sample.rsaKey).
    + intros b Hb. unfold classify_block. rewrite Hb. reflexivity.
    + vm_compute; reflexivity.
    + reflexivity.
    + vm_compute; reflexivity.
    + right. reflexivity.
Defined.

Lemma parsePrivateKeyPEM_rejected_witness :
  (@parsePrivateKeyPEM Sample.lib classify_block (Sample.text "Eqk;")
   = (None, "", Some (KeyDecodeFailed PreamblePrivateKeyEC
                        (errorString "x509: failed to parse EC private key")))) /\
  (@parsePrivateKeyPEM Sample.lib classify_block (Sample.text "Rek;")
   = (None, "", Some (KeyDecodeFailed PreamblePrivateKeyRSA Sample.pkcs1Error))).
Proof.
  split.
  - apply (proj1 (@parsePrivateKeyPEM_rejected Sample.lib classify_block)
             (Sample.text "Eqk;") [] (Sample.block "EC PRIVATE KEY" "qk")
             PreamblePrivateKeyEC
             (fun der => let '(key, err) := Sample.ParseECPrivateKey der in
                         (ptrToAny ecdsa.PrivateKey key, err))
             (ptrToAny ecdsa.PrivateKey None)
             (errorString "x509: failed to parse EC private key"));
      vm_compute; reflexivity.
  - apply (proj2 (@parsePrivateKeyPEM_rejected Sample.lib classify_block)
             (Sample.text "Rek;") [] (Sample.block "RSA PRIVATE KEY" "ek")
             (VBytes (Sample.text "k")) None Sample.pkcs1Error).
    + intros b Hb. unfold classify_block. rewrite Hb. reflexivity.
    + vm_compute; reflexivity.
    + reflexivity.
    + vm_compute; reflexivity.
    + vm_compute; reflexivity.
Defined.

Lemma decode_private_key_unrecognized_witness :
  @decode_private_key Sample.lib (Sample.text "Cdk;")
  = (None, "", Some (UnrecognizedPreamble "CERTIFICATE")) /\
  carries (Error (UnrecognizedPreamble "CERTIFICATE")) "CERTIFICATE".
Proof.
  destruct (@decode_private_key_unrecognized Sample.lib (Sample.text "Cdk;") []
              (Sample.block "CERTIFICATE" "dk")) as (Hresult & Herror & Hcarries).
  - vm_compute; reflexivity.
  - rewrite !not_elem_of_cons. repeat split; [discriminate.. | apply not_elem_of_nil].
  - split; [exact Hresult | exact Hcarries].
Defined.

Lemma parsePrivateKeyPEM_malformed_witness :
  @parsePrivateKeyPEM Sample.lib classify_block (Sample.text "Pdk")
  = (None, "", Some (MalformedPEM 0 3)) /\
  Error (MalformedPEM 0 3) = "failed to decode PEM block: decoded bytes 0, undecoded 3".
Proof.
  apply (@parsePrivateKeyPEM_malformed Sample.lib classify_block
           (Sample.text "Pdk") (Sample.text "Pdk")).
  vm_compute; reflexivity.
Defined.



Lemma keyParsers_closed_witness :
  is_Some (@keyParsers Sample.lib !! PreamblePrivateKeyEC) /\
  snd (@parsePrivateKeyPEM Sample.lib classify_block (Sample.text "Pxk;"))
  <> Some (ParserUndetermined PreamblePrivateKeyPKCS8).
Proof.
  split.
  - apply (proj1 (@keyParsers_closed Sample.lib) PreamblePrivateKeyEC).
    repeat constructor.
  - apply (proj2 (@keyParsers_closed Sample.lib) classify_block
             (Sample.text "Pxk;") [] (Sample.block "PRIVATE KEY" "xk")
             PreamblePrivateKeyPKCS8).
    + vm_compute; reflexivity.
    + reflexivity.
    + repeat constructor.
Defined.

Lemma parsePrivateKeyPEM_unsupported_witness :
  privateKeyToAlgorithm Sample.ecdhKey = ("", Some (UnsupportedKeyType "*ecdh.PrivateKey")) /\
  @parsePrivateKeyPEM Sample.lib classify_block (Sample.text "Pxk;")
  = (None, "", Some (AlgorithmUndetermined "*ecdh.PrivateKey")).
Proof.
  destruct (@parsePrivateKeyPEM_unsupported Sample.lib classify_block
              (Sample.text "Pxk;") [] (Sample.block "PRIVATE KEY" "xk")
              PreamblePrivateKeyPKCS8 (fun der => Sample.ParsePKCS8PrivateKey der)
              Sample.ecdhKey) as (Hswitch & Hresult & _).
  - vm_compute; reflexivity.
  - reflexivity.
  - reflexivity.
  - vm_compute; reflexivity.
  - intros T [= <-]. unfold supportedShapes.
    rewrite !not_elem_of_cons. repeat split; [discriminate.. | apply not_elem_of_nil].
  - split; [exact Hswitch | exact Hresult].
Defined.

Example sample_rsa :
  @decode_private_key Sample.lib (Sample.text "Rrk;")
  = (ptrToAny rsa.PrivateKey (Some (VBytes (Sample.text "k"))), RSA, None).
Proof. vm_compute. reflexivity. Qed.

Example sample_pkcs8_ecdsa :
  @decode_private_key Sample.lib (Sample.text "Pek;trailing")
  = (ptrToAny ecdsa.PrivateKey (Some (VBytes (Sample.text "k"))), ECDSA, None).
Proof. vm_compute. reflexivity. Qed.

Example sample_message :
  option_map Error (snd (@decode_private_key Sample.lib (Sample.text "Pxk;")))
  = Some ("failed to determine key algorithm for private key of type *ecdh.PrivateKey: "
          ++ "unsupported private key type: *ecdh.PrivateKey").
Proof. vm_compute. reflexivity. Qed.


(** ** Runs of the further properties *)

Lemma privateKeyToAlgorithm_holds_witness :
  privateKeyToAlgorithm (ptrToAny ed25519.PrivateKey None) = (ED25519, None).
Proof.
  apply (proj2 (proj2 (privateKeyToAlgorithm_holds (ptrToAny ed25519.PrivateKey None)))).
  right. reflexivity.
Defined.

Lemma privateKeyToAlgorithm_type_only_witness :
  privateKeyToAlgorithm (ptrToAny rsa.PrivateKey None)
  = privateKeyToAlgorithm (ptrToAny rsa.PrivateKey (Some (VInt 7))).
Proof.
  apply (privateKeyToAlgorithm_type_only
           (ptrToAny rsa.PrivateKey None) (ptrToAny rsa.PrivateKey (Some (VInt 7)))).
  reflexivity.
Defined.

Lemma keyParsers_legacy_typed_witness :
  fst (let '(key, err) := Sample.ParsePKCS1PrivateKey (Sample.text "zz") in
       (ptrToAny rsa.PrivateKey key, err)) <> None.
Proof.
  apply (@keyParsers_legacy_typed Sample.lib PreamblePrivateKeyRSA
           (fun der => let '(key, err) := Sample.ParsePKCS1PrivateKey der in
                       (ptrToAny rsa.PrivateKey key, err))
           (Sample.text "zz")).
  - reflexivity.
  - discriminate.
Defined.

Lemma parsePrivateKeyPEM_no_parser_witness :
  @parsePrivateKeyPEM Sample.lib (fun b => (pem.Type_ b, None)) (Sample.text "Cdk;")
  = (None, "", Some (ParserUndetermined "CERTIFICATE")) /\
  carries (Error (ParserUndetermined "CERTIFICATE")) "CERTIFICATE".
Proof.
  apply (@parsePrivateKeyPEM_no_parser Sample.lib (fun b => (pem.Type_ b, None))
           (Sample.text "Cdk;") [] (Sample.block "CERTIFICATE" "dk")).
  - vm_compute; reflexivity.
  - reflexivity.
  - rewrite !not_elem_of_cons. repeat split; [discriminate.. | apply not_elem_of_nil].
Defined.

Lemma parsePrivateKeyPEM_rsa_path_witness :
  @parsePrivateKeyPEM Sample.lib classify_block (Sample.text "Rrk;")
  = (ptrToAny rsa.PrivateKey (Some (VBytes (Sample.text "k"))), RSA, None).
Proof.
  etransitivity.
  - apply (@parsePrivateKeyPEM_rsa_path Sample.lib classify_block
             (Sample.text "Rrk;") [] (Sample.block "RSA PRIVATE KEY" "rk"));
      vm_compute; reflexivity.
  - vm_compute; reflexivity.
Defined.

Lemma parsePrivateKeyPEM_ec_path_witness :
  @parsePrivateKeyPEM Sample.lib classify_block (Sample.text "Erk;")
  = (None, "", Some (KeyDecodeFailed PreamblePrivateKeyEC
                       (errorString "x509: failed to parse EC private key"))).
Proof.
  etransitivity.
  - apply (@parsePrivateKeyPEM_ec_path Sample.lib classify_block
             (Sample.text "Erk;") [] (Sample.block "EC PRIVATE KEY" "rk"));
      vm_compute; reflexivity.
  - vm_compute; reflexivity.
Defined.

Lemma parsePrivateKeyPEM_bytes_only_witness :
  @parsePrivateKeyPEM Sample.lib (fun _ => (PreamblePrivateKeyPKCS8, None)) (Sample.text "Pdk;")
  = @parsePrivateKeyPEM Sample.lib (fun _ => (PreamblePrivateKeyPKCS8, None))
      (Sample.text "Cdk;zz").
Proof.
  apply (@parsePrivateKeyPEM_bytes_only Sample.lib (fun _ => (PreamblePrivateKeyPKCS8, None))
           (Sample.text "Pdk;") (Sample.text "Cdk;zz") [] (Sample.text "zz")
           (Sample.block "PRIVATE KEY" "dk") (Sample.block "CERTIFICATE" "dk"));
    vm_compute; reflexivity.
Defined.

Lemma parsePrivateKeyPEM_malformed_whole_witness :
  @parsePrivateKeyPEM Sample.lib classify_block (Sample.text "no envelope")
  = (None, "", Some (errorString "failed to decode PEM block: decoded bytes 0, undecoded 11")).
Proof.
  etransitivity.
  - apply (@parsePrivateKeyPEM_malformed_whole Sample.lib classify_block
             (Sample.text "no envelope")).
    vm_compute; reflexivity.
  - vm_compute; reflexivity.
Defined.
